(** * AI Comparison Tool: the relay of [server.js]

    A shallow embedding of the Express server of [src/server.js]: the three
    provider adapters [callModelA], [callModelB], [callModelC], the handler
    of [POST /api/compare] and the handler of [GET /api/health].

    JavaScript values are the values [express.json()] and axios hand to the
    code (the results of [JSON.parse]), strings are sequences of UTF-16 code
    units, and the code runs in a small monad that reads the process
    environment, the clock and the network, records what the code does
    (outbound requests, console output, the call of [trim]) and ends either
    normally or with a thrown error. *)

From Stdlib Require Import List NArith ZArith Bool String Ascii Lia.
From Stdlib Require Import Floats.SpecFloat.
Import ListNotations.

Set Implicit Arguments.

(** ** Strings *)

Module JsString.

(** A JavaScript string: its UTF-16 code units. *)
Definition t := list N.

(** An ASCII literal of the source. *)
Definition lit (s : string) : t := map N_of_ascii (list_ascii_of_string s).

Definition eqb (a b : t) : bool :=
  if list_eq_dec N.eq_dec a b then true else false.

(** The code unit of the double quote. *)
Definition dquote : t := [34%N].

(** [WhiteSpace] and [LineTerminator] of ECMAScript, the code points
    [String.prototype.trim] strips; all of them are single code units. *)
Definition is_white_space (c : N) : bool :=
  ((0x09 <=? c) && (c <=? 0x0D) || (c =? 0x20) || (c =? 0xA0) || (c =? 0x1680)
   || (0x2000 <=? c) && (c <=? 0x200A) || (c =? 0x2028) || (c =? 0x2029)
   || (c =? 0x202F) || (c =? 0x205F) || (c =? 0x3000) || (c =? 0xFEFF))%N.

Fixpoint trim_start (s : t) : t :=
  match s with
  | c :: r => if is_white_space c then trim_start r else s
  | [] => []
  end.

Definition trim_end (s : t) : t := rev (trim_start (rev s)).

(** [s.trim()] *)
Definition trim (s : t) : t := trim_end (trim_start s).

(** [s.substring(0, n)] *)
Definition substring0 (n : nat) (s : t) : t := firstn n s.

Fixpoint of_uint (d : Decimal.uint) : t :=
  match d with
  | Decimal.Nil => []
  | Decimal.D0 r => 48%N :: of_uint r
  | Decimal.D1 r => 49%N :: of_uint r
  | Decimal.D2 r => 50%N :: of_uint r
  | Decimal.D3 r => 51%N :: of_uint r
  | Decimal.D4 r => 52%N :: of_uint r
  | Decimal.D5 r => 53%N :: of_uint r
  | Decimal.D6 r => 54%N :: of_uint r
  | Decimal.D7 r => 55%N :: of_uint r
  | Decimal.D8 r => 56%N :: of_uint r
  | Decimal.D9 r => 57%N :: of_uint r
  end.

(** The decimal numeral of a natural number, as [String(n)] prints it. *)
Definition of_N (n : N) : t := of_uint (N.to_uint n).

Definition is_digit (c : N) : bool := ((48 <=? c) && (c <=? 57))%N.

Fixpoint digits_value (acc : N) (s : t) : option N :=
  match s with
  | [] => Some acc
  | c :: r => if is_digit c then digits_value (acc * 10 + (c - 48)) r else None
  end.

(** A property key that is a canonical array index: ["0"], or digits
    without a leading zero. *)
Definition array_index (k : t) : option nat :=
  match k with
  | [] => None
  | [48%N] => Some 0
  | c :: _ => if (c =? 48)%N then None
              else option_map N.to_nat (digits_value 0 k)
  end.

End JsString.

Definition jsstring : Type := JsString.t.
Notation "` s" := (JsString.lit s) (at level 1, s at level 0, format "` s").

(** ** Values *)

(** A JavaScript number is an IEEE binary64; [S754_finite s m e] stands for
    [(-1)^s * m * 2^e]. The code does no arithmetic, so the model keeps the
    numbers as they are given. *)
Definition number : Type := spec_float.

Definition number_of_nat (n : nat) : number :=
  match n with
  | O => S754_zero false
  | S _ => S754_finite false (Pos.of_nat n) 0
  end.

(** The values the code meets: [undefined], and what [JSON.parse] builds. *)
#[warnings="-register-all"]
Inductive value : Type :=
| VUndefined
| VNull
| VBool (b : bool)
| VNum (x : number)
| VStr (s : jsstring)
| VArr (elems : list value)
| VObj (props : list (jsstring * value)).

(** An own property of a parsed object. *)
Fixpoint own_property (props : list (jsstring * value)) (k : jsstring) : value :=
  match props with
  | [] => VUndefined
  | (k', v) :: r => if JsString.eqb k' k then v else own_property r k
  end.

(** [ToBoolean] *)
Definition to_boolean (v : value) : bool :=
  match v with
  | VUndefined | VNull => false
  | VBool b => b
  | VNum (S754_zero _) | VNum S754_nan => false
  | VNum _ => true
  | VStr s => negb (Nat.eqb (List.length s) 0)
  | VArr _ | VObj _ => true
  end.

(** [a === b] on primitive values. Arrays and objects compare by reference,
    which the model does not keep; the code applies [===] to a length and [0]
    only, where the comparison of [SFeqb] is exact. *)
Definition strict_equals (a b : value) : bool :=
  match a, b with
  | VUndefined, VUndefined | VNull, VNull => true
  | VBool x, VBool y => Bool.eqb x y
  | VNum x, VNum y => SFeqb x y
  | VStr x, VStr y => JsString.eqb x y
  | _, _ => false
  end.

Definition is_string (v : value) : bool :=
  match v with VStr _ => true | _ => false end.

(** What a client reads back from [JSON.stringify v]: a property whose value is
    [undefined] is left out, [undefined] inside an array and the numbers that
    are not finite become [null], and [-0] prints as [0]. *)
Fixpoint json_image (v : value) : value :=
  match v with
  | VNum (S754_zero _) => VNum (S754_zero false)
  | VNum (S754_finite s m e) => VNum (S754_finite s m e)
  | VNum _ => VNull
  | VArr l =>
      VArr (map (fun x => match json_image x with VUndefined => VNull | y => y end) l)
  | VObj ps =>
      VObj (flat_map (fun kv => match json_image (snd kv) with
                                | VUndefined => []
                                | y => [(fst kv, y)]
                                end) ps)
  | _ => v
  end.

(** ** Errors, the network and the world *)

Inductive error_kind : Type := TypeError | AxiosError.

(** A thrown [Error] object; the code reads its [message] only. *)
Record error : Type := Error { kind : error_kind; message : jsstring }.

(** The arguments of one [axios.post(url, body, { headers })]. *)
Record request : Type := Request {
  url : jsstring;
  body : value;
  headers : list (jsstring * value)
}.

(** What the network does with a request: no answer at all (DNS, refused
    connection, timeout), or an HTTP answer with its status and the body as
    axios hands it on (parsed JSON, or the raw text when it is not JSON). *)
Inductive http_outcome : Type :=
| NetworkError (msg : jsstring)
| HttpReply (status : N) (data : value).

(** The response object of axios; the code reads [response.data]. *)
Record axios_response : Type := AxiosResponse { response_status : N; data : value }.

(** What the code reads from outside: [process.env], the network behind
    [axios.post] and the clock behind [new Date().toISOString()]. *)
Record World : Type := MkWorld {
  process_env : jsstring -> option jsstring;
  network : request -> http_outcome;
  now_iso : jsstring
}.

(** What the code does that can be observed from outside of it. *)
Inductive event : Type :=
| Outbound (r : request)          (* axios.post issued *)
| ConsoleLog (line : jsstring)    (* console.log *)
| ConsoleError (e : error)        (* console.error *)
| CallTrim (receiver : value).    (* prompt.trim() evaluated *)

(** The response the handler sends with [res.status(s).json(b)]. *)
Record http_response : Type := Respond { status : N; response_body : value }.

(** ** The monad of the code *)

Inductive completion (A : Type) : Type :=
| Normal (a : A)
| Throw (e : error).
Arguments Throw {A} e.

(** A computation reads the world, and yields the events it caused and how it
    ended. For an [async] function, [Throw] is the rejection of its promise. *)
Definition M (A : Type) : Type := World -> list event * completion A.

Definition ret {A} (a : A) : M A := fun _ => ([], Normal a).

Definition throw {A} (e : error) : M A := fun _ => ([], Throw e).

Definition bind {A B} (m : M A) (k : A -> M B) : M B :=
  fun w =>
    match m w with
    | (t, Normal a) => let (t', c) := k a w in (t ++ t', c)
    | (t, Throw e) => (t, Throw e)
    end.

(** [try { m } catch (error) { h error }] *)
Definition try_catch {A} (m : M A) (h : error -> M A) : M A :=
  fun w =>
    match m w with
    | (t, Normal a) => (t, Normal a)
    | (t, Throw e) => let (t', c) := h e w in (t ++ t', c)
    end.

Definition emit (e : event) : M unit := fun _ => ([e], Normal tt).

Definition ask : M World := fun w => ([], Normal w).

Declare Scope js_scope.
Delimit Scope js_scope with js.
Notation "x <- m ;; k" := (bind m (fun x => k))
  (at level 100, m at next level, right associativity) : js_scope.
Notation "m ;; k" := (bind m (fun _ => k))
  (at level 100, right associativity) : js_scope.
Open Scope js_scope.

(** The events of a run and its completion. *)
Definition trace {A} (m : M A) (w : World) : list event := fst (m w).
Definition outcome {A} (m : M A) (w : World) : completion A := snd (m w).

(** ** The operations of the language and of the libraries *)

(** The text of a template literal hole [${process.env.NAME}]. *)
Definition env_text (o : option jsstring) : jsstring :=
  match o with Some s => s | None => `"undefined" end.

(** The value of the expression [process.env.NAME]. *)
Definition env_value (o : option jsstring) : value :=
  match o with Some s => VStr s | None => VUndefined end.

Definition undefined_or_null (v : value) : bool :=
  match v with VUndefined | VNull => true | _ => false end.

Definition type_name (v : value) : jsstring :=
  match v with VNull => `"null" | _ => `"undefined" end.

(** The message of V8 for a property read on [undefined] or [null]. *)
Definition cannot_read (v : value) (k : jsstring) : error :=
  Error TypeError
    (`"Cannot read properties of " ++ type_name v ++ `" (reading '" ++ k ++ `"')").

(** The property [k] of a value that is neither [undefined] nor [null]. The
    names the code reads ([prompt], [choices], [message], [content], [text],
    [candidates], [parts]) are on no prototype, so only own properties, the
    indices and the [length] of arrays and strings answer. *)
Definition property_of (v : value) (k : jsstring) : value :=
  match v with
  | VObj ps => own_property ps k
  | VArr l =>
      if JsString.eqb k `"length" then VNum (number_of_nat (List.length l))
      else match JsString.array_index k with
           | Some i => nth i l VUndefined
           | None => VUndefined
           end
  | VStr s =>
      if JsString.eqb k `"length" then VNum (number_of_nat (List.length s))
      else match JsString.array_index k with
           | Some i => match nth_error s i with
                       | Some c => VStr [c]
                       | None => VUndefined
                       end
           | None => VUndefined
           end
  | _ => VUndefined
  end.

(** [v.k] and [v[k]]: a [TypeError] on [undefined] and [null]. *)
Definition get (v : value) (k : jsstring) : M value :=
  if undefined_or_null v then throw (cannot_read v k) else ret (property_of v k).

(** [const { k } = v]: the same read, with the message of a destructuring. *)
Definition destructure (source : jsstring) (v : value) (k : jsstring) : M value :=
  if undefined_or_null v
  then throw (Error TypeError
                (`"Cannot destructure property '" ++ k ++ `"' of '" ++ source
                 ++ `"' as it is " ++ type_name v ++ `"."))
  else ret (property_of v k).

(** [const [a, b, c] = l] on the array [Promise.all] resolves to. *)
Definition destructure3 (l : list value) : value * value * value :=
  (nth 0 l VUndefined, nth 1 l VUndefined, nth 2 l VUndefined).

(** [v.trim()]. Only a string has the method: on every other value that is
    not [undefined] or [null] the property [trim] is missing or, on a parsed
    object that has one, no function, and the call is a [TypeError]. *)
Definition call_trim (what : jsstring) (v : value) : M value :=
  emit (CallTrim v) ;;
  match v with
  | VStr s => ret (VStr (JsString.trim s))
  | VUndefined | VNull => throw (cannot_read v `"trim")
  | _ => throw (Error TypeError (what ++ `".trim is not a function"))
  end.

(** [v.substring(0, n)], a method of strings only. *)
Definition call_substring0 (what : jsstring) (v : value) (n : nat) : M jsstring :=
  match v with
  | VStr s => ret (JsString.substring0 n s)
  | VUndefined | VNull => throw (cannot_read v `"substring")
  | _ => throw (Error TypeError (what ++ `".substring is not a function"))
  end.

(** [new Date().toISOString()] *)
Definition date_now_iso : M jsstring := fun w => ([], Normal (now_iso w)).

(** [process.env.NAME] *)
Definition getenv (name : jsstring) : M (option jsstring) :=
  fun w => ([], Normal (process_env w name)).

(** The default [validateStatus] of axios. *)
Definition validate_status (s : N) : bool := ((200 <=? s) && (s <? 300))%N.

(** [await axios.post(url, body, { headers })]: the request goes out; the
    promise rejects when the network gives no answer and, by the default
    [validateStatus], when the status is outside 200..299, and resolves to
    the response otherwise. *)
Definition axios_post (r : request) : M axios_response :=
  emit (Outbound r) ;;
  w <- ask ;;
  match network w r with
  | NetworkError msg => throw (Error AxiosError msg)
  | HttpReply s d =>
      if validate_status s then ret (AxiosResponse s d)
      else throw (Error AxiosError
                    (`"Request failed with status code " ++ JsString.of_N s))
  end.

(** How the promises of a list settle when each has run to its end. *)
Fixpoint settle_all {A} (cs : list (completion A)) : completion (list A) :=
  match cs with
  | [] => Normal []
  | Throw e :: _ => Throw e
  | Normal a :: r =>
      match settle_all r with
      | Normal l => Normal (a :: l)
      | Throw e => Throw e
      end
  end.

(** [await Promise.all([p1, ..., pn])]: the calls of the array literal are all
    started, in order, before anything is awaited, so every one of them runs
    whether or not another rejects; the result is the array of the values, or
    a rejection when one of them rejects. *)
Definition promise_all {A} (ps : list (M A)) : M (list A) :=
  fun w =>
    let rs := map (fun p => p w) ps in
    (List.concat (map fst rs), settle_all (map snd rs)).

(** [res.status(s).json(b)]; a plain [res.json(b)] has the status 200. *)
Definition res_json (s : N) (b : value) : M http_response :=
  ret (Respond s (json_image b)).

(** ** The provider adapters *)

(** The arguments of the [axios.post] of [callModelA]: the chat completions
    of OpenAI, with the key of the environment as bearer token. *)
Definition requestA (key : option jsstring) (prompt : value) : request :=
  Request
    `"https://api.openai.com/v1/chat/completions"
    (VObj [(`"model", VStr `"gpt-4");
           (`"messages", VArr [VObj [(`"role", VStr `"user");
                                     (`"content", prompt)]]);
           (`"max_tokens", VNum (number_of_nat 500))])
    [(`"Authorization", VStr (`"Bearer " ++ env_text key));
     (`"Content-Type", VStr `"application/json")].

Definition callModelA (prompt : value) : M value :=
  try_catch
    (key <- getenv `"OPENAI_API_KEY" ;;
     response <- axios_post (requestA key prompt) ;;
     choices <- get (data response) `"choices" ;;
     choice <- get choices `"0" ;;
     message <- get choice `"message" ;;
     get message `"content")
    (fun error => ret (VStr (`"Error calling Model A: " ++ message error))).

(** The arguments of the [axios.post] of [callModelB]: the messages of
    Anthropic, with the key in a header of its own. *)
Definition requestB (key : option jsstring) (prompt : value) : request :=
  Request
    `"https://api.anthropic.com/v1/messages"
    (VObj [(`"model", VStr `"claude-3-opus-20240229");
           (`"max_tokens", VNum (number_of_nat 500));
           (`"messages", VArr [VObj [(`"role", VStr `"user");
                                     (`"content", prompt)]])])
    [(`"x-api-key", env_value key);
     (`"Content-Type", VStr `"application/json");
     (`"anthropic-version", VStr `"2023-06-01")].

Definition callModelB (prompt : value) : M value :=
  try_catch
    (key <- getenv `"ANTHROPIC_API_KEY" ;;
     response <- axios_post (requestB key prompt) ;;
     content <- get (data response) `"content" ;;
     block <- get content `"0" ;;
     get block `"text")
    (fun error => ret (VStr (`"Error calling Model B: " ++ message error))).

(** The arguments of the [axios.post] of [callModelC]: the content generation
    of Google Gemini, with the key in the query string. *)
Definition requestC (key : option jsstring) (prompt : value) : request :=
  Request
    (`"https://generativelanguage.googleapis.com/v1beta/models/gemini-pro:generateContent?key="
      ++ env_text key)
    (VObj [(`"contents",
            VArr [VObj [(`"parts", VArr [VObj [(`"text", prompt)]])]])])
    [(`"Content-Type", VStr `"application/json")].

Definition callModelC (prompt : value) : M value :=
  try_catch
    (key <- getenv `"GOOGLE_API_KEY" ;;
     response <- axios_post (requestC key prompt) ;;
     candidates <- get (data response) `"candidates" ;;
     candidate <- get candidates `"0" ;;
     content <- get candidate `"content" ;;
     parts <- get content `"parts" ;;
     part <- get parts `"0" ;;
     get part `"text")
    (fun error => ret (VStr (`"Error calling Model C: " ++ message error))).

(** ** The endpoints *)

(** The request object of Express; the handlers read [req.body], which
    [express.json()] has filled. *)
Record express_request : Type := ExpressRequest { req_body : value }.

(** [app.post('/api/compare', async (req, res) => ...)]. A [Throw] is the
    rejection of the handler's promise: no response was sent. *)
Definition compare_handler (req : express_request) : M http_response :=
  prompt <- destructure `"req.body" (req_body req) `"prompt" ;;
  invalid <- (if negb (to_boolean prompt) then ret true
              else (trimmed <- call_trim `"prompt" prompt ;;
                    len <- get trimmed `"length" ;;
                    ret (strict_equals len (VNum (number_of_nat 0))))) ;;
  if invalid : bool
  then res_json 400 (VObj [(`"error", VStr `"Prompt cannot be empty")])
  else
    (stamp <- date_now_iso ;;
     head <- call_substring0 `"prompt" prompt 50 ;;
     emit (ConsoleLog (`"[" ++ stamp ++ `"] Comparing prompt: "
                       ++ JsString.dquote ++ head ++ `"..." ++ JsString.dquote)) ;;
     try_catch
       (results <- promise_all [callModelA prompt; callModelB prompt;
                                callModelC prompt] ;;
        let '(responseA, responseB, responseC) := destructure3 results in
        res_json 200 (VObj [(`"modelA", responseA);
                            (`"modelB", responseB);
                            (`"modelC", responseC)]))
       (fun error =>
          emit (ConsoleError error) ;;
          res_json 500 (VObj [(`"error", VStr `"Internal server error")]))).

(** [app.get('/api/health', (req, res) => ...)] *)
Definition health_handler (req : express_request) : M http_response :=
  res_json 200 (VObj [(`"status", VStr `"Server is running")]).

(** ** The vocabulary of the specification *)

(** The three providers, each with the adapter that calls it. *)
Inductive provider : Type := ModelA | ModelB | ModelC.

Definition call_adapter (x : provider) : value -> M value :=
  match x with
  | ModelA => callModelA
  | ModelB => callModelB
  | ModelC => callModelC
  end.

Definition provider_label (x : provider) : jsstring :=
  match x with
  | ModelA => `"Model A"
  | ModelB => `"Model B"
  | ModelC => `"Model C"
  end.

(** The slot of a provider in the body of the comparison. *)
Definition slot_name (x : provider) : jsstring :=
  match x with
  | ModelA => `"modelA"
  | ModelB => `"modelB"
  | ModelC => `"modelC"
  end.

(** The request an adapter builds for a prompt in a world. *)
Definition provider_request (x : provider) (w : World) (prompt : value) : request :=
  match x with
  | ModelA => requestA (process_env w `"OPENAI_API_KEY") prompt
  | ModelB => requestB (process_env w `"ANTHROPIC_API_KEY") prompt
  | ModelC => requestC (process_env w `"GOOGLE_API_KEY") prompt
  end.

(** The fixed path of the generated text in the response of a provider. *)
Definition extraction_path (x : provider) : list jsstring :=
  match x with
  | ModelA => [`"choices"; `"0"; `"message"; `"content"]
  | ModelB => [`"content"; `"0"; `"text"]
  | ModelC => [`"candidates"; `"0"; `"content"; `"parts"; `"0"; `"text"]
  end.

(** Reading a path of properties, one after the other. *)
Fixpoint follow (path : list jsstring) (v : value) : completion value :=
  match path with
  | [] => Normal v
  | k :: r =>
      if undefined_or_null v then Throw (cannot_read v k)
      else follow r (property_of v k)
  end.

(** The string an adapter returns for a caught error. *)
Definition error_text (x : provider) (msg : jsstring) : value :=
  VStr (`"Error calling " ++ provider_label x ++ `": " ++ msg).

(** The message of axios for a status outside 200..299. *)
Definition status_message (s : N) : jsstring :=
  `"Request failed with status code " ++ JsString.of_N s.

(** An outcome of the HTTP call that is a failure in the sense of the
    specification: a network error, a status that is not 2xx (which is also how
    a missing credential shows), or a response whose body does not have a text
    at the path of the provider. *)
Definition failed_call (x : provider) (o : http_outcome) : bool :=
  match o with
  | NetworkError _ => true
  | HttpReply s d =>
      negb (validate_status s)
      || match follow (extraction_path x) d with
         | Normal leaf => negb (is_string leaf)
         | Throw _ => true
         end
  end.

(** The error an adapter catches, if its call raises one: the rejection of
    axios, or the [TypeError] of a path that runs into [undefined] or [null]. *)
Definition caught (x : provider) (o : http_outcome) : option error :=
  match o with
  | NetworkError msg => Some (Error AxiosError msg)
  | HttpReply s d =>
      if validate_status s
      then match follow (extraction_path x) d with
           | Normal _ => None
           | Throw e => Some e
           end
      else Some (Error AxiosError (status_message s))
  end.

(** A result is an error string of a provider. *)
Definition reports_failure (x : provider) (c : completion value) : Prop :=
  exists msg, c = Normal (error_text x msg).

Definition is_number (v : value) : bool :=
  match v with VNum _ => true | _ => false end.

(** The value at a path, [undefined] when the path does not lead there. *)
Definition at_path (path : list jsstring) (v : value) : value :=
  match follow path v with Normal leaf => leaf | Throw _ => VUndefined end.

(** The max-output-token cap of a request, under the name the API of the
    provider reads it from: [max_tokens] for the chat completions and the
    messages, [generationConfig.maxOutputTokens] for the content generation. *)
Definition token_cap (x : provider) (r : request) : value :=
  match x with
  | ModelA | ModelB => at_path [`"max_tokens"] (body r)
  | ModelC => at_path [`"generationConfig"; `"maxOutputTokens"] (body r)
  end.

Definition carries_token_cap (x : provider) (r : request) : bool :=
  is_number (token_cap x r).

(** Every number that occurs in a value. *)
Fixpoint numbers_of (v : value) : list number :=
  match v with
  | VNum n => [n]
  | VArr l => flat_map numbers_of l
  | VObj ps => flat_map (fun kv => numbers_of (snd kv)) ps
  | _ => []
  end.

(** The place of the prompt in the body of the request of a provider. *)
Definition prompt_path (x : provider) : list jsstring :=
  match x with
  | ModelA | ModelB => [`"messages"; `"0"; `"content"]
  | ModelC => [`"contents"; `"0"; `"parts"; `"0"; `"text"]
  end.

(** The slot of a provider in a response, as the client reads it. *)
Definition slot (x : provider) (r : http_response) : value :=
  match response_body r with
  | VObj ps => own_property ps (slot_name x)
  | _ => VUndefined
  end.

(** A string that is empty once trimmed. *)
Definition blank (s : jsstring) : bool :=
  Nat.eqb (List.length (JsString.trim s)) 0.

(** The prompt of a request: the property the handler destructures, when
    [req.body] is a value that has properties. *)
Definition prompt_of (req : express_request) : option value :=
  if undefined_or_null (req_body req) then None
  else Some (property_of (req_body req) `"prompt").

(** The requests and the calls of [trim] among the events of a run. *)
Definition outbound (t : list event) : list request :=
  flat_map (fun e => match e with Outbound r => [r] | _ => [] end) t.

Definition trim_calls (t : list event) : list value :=
  flat_map (fun e => match e with CallTrim v => [v] | _ => [] end) t.

(** The line the handler logs before it dispatches. *)
Definition log_line (w : World) (s : jsstring) : jsstring :=
  `"[" ++ now_iso w ++ `"] Comparing prompt: "
  ++ JsString.dquote ++ JsString.substring0 50 s ++ `"..." ++ JsString.dquote.

(** The same world with another network. *)
Definition with_network (w : World) (net : request -> http_outcome) : World :=
  MkWorld (process_env w) net (now_iso w).

(** What two runs of the handler show of a provider: the status of the
    response and the slot of the provider. *)
Definition view (x : provider) (c : completion http_response)
  : completion (N * value) :=
  match c with
  | Normal r => Normal (status r, slot x r)
  | Throw e => Throw e
  end.

Definition json (s : N) (b : value) : http_response := Respond s (json_image b).

Definition empty_prompt_response : http_response :=
  json 400 (VObj [(`"error", VStr `"Prompt cannot be empty")]).

(** What an adapter returns for an outcome of its HTTP call. *)
Definition adapter_result (x : provider) (o : http_outcome) : value :=
  match o with
  | NetworkError msg => error_text x msg
  | HttpReply s d =>
      if validate_status s
      then match follow (extraction_path x) d with
           | Normal leaf => leaf
           | Throw e => error_text x (message e)
           end
      else error_text x (status_message s)
  end.

(** The body the handler hands to [res.json] on a valid prompt. *)
Definition comparison (w : World) (prompt : value) : value :=
  VObj (map (fun x => (slot_name x,
                       adapter_result x (network w (provider_request x w prompt))))
          [ModelA; ModelB; ModelC]).

(** ** Worlds and requests of the examples *)

Module Examples.

Definition no_keys : jsstring -> option jsstring := fun _ => None.

Definition stamp : jsstring := `"2024-05-01T12:00:00.000Z".

(** A network that answers each provider by the address of the request. *)
Definition serve (a b c : http_outcome) : request -> http_outcome :=
  fun r =>
    if JsString.eqb (url r) `"https://api.openai.com/v1/chat/completions" then a
    else if JsString.eqb (url r) `"https://api.anthropic.com/v1/messages" then b
    else c.

(** Answers of the three providers in their documented shapes. *)
Definition openai_says (content : value) : http_outcome :=
  HttpReply 200
    (VObj [(`"choices",
            VArr [VObj [(`"index", VNum (number_of_nat 0));
                        (`"message", VObj [(`"role", VStr `"assistant");
                                           (`"content", content)])]])]).

Definition anthropic_says (text : value) : http_outcome :=
  HttpReply 200
    (VObj [(`"content", VArr [VObj [(`"type", VStr `"text"); (`"text", text)]])]).

Definition gemini_says (part : value) : http_outcome :=
  HttpReply 200
    (VObj [(`"candidates",
            VArr [VObj [(`"content", VObj [(`"parts", VArr [part])])]])]).

Definition hello : value := VStr `"Hello".

(** All three providers answer with a text. *)
Definition online : World :=
  MkWorld no_keys
    (serve (openai_says hello) (anthropic_says hello)
       (gemini_says (VObj [(`"text", hello)])))
    stamp.

(** No provider can be reached. *)
Definition offline : World :=
  MkWorld no_keys (fun _ => NetworkError `"Network Error") stamp.

(** Provider A answers 200 with a message whose content is [null]. *)
Definition null_content : World :=
  MkWorld no_keys
    (serve (openai_says VNull) (anthropic_says hello)
       (gemini_says (VObj [(`"text", hello)])))
    stamp.

(** Provider C answers 200 with a part that has no text. *)
Definition textless_part : World :=
  MkWorld no_keys
    (serve (openai_says hello) (anthropic_says hello)
       (gemini_says (VObj [(`"inlineData", VObj [])])))
    stamp.



(** The network of [online], but provider A cannot be reached. *)
Definition without_a : request -> http_outcome :=
  serve (NetworkError `"Network Error") (anthropic_says hello)
    (gemini_says (VObj [(`"text", hello)])).

Definition post (prompt : value) : express_request :=
  ExpressRequest (VObj [(`"prompt", prompt)]).

(** [{ "prompt": "  hi  " }] *)
Definition padded_hi : jsstring := `"  hi  ".

(** [{ "prompt": 42 }] *)
Definition forty_two : value := VNum (number_of_nat 42).


End Examples.

(** ** Further vocabulary: the environment, the console and the replies *)

(** The variable of the environment an adapter reads its credential from. *)
Definition env_key (x : provider) : jsstring :=
  match x with
  | ModelA => `"OPENAI_API_KEY"
  | ModelB => `"ANTHROPIC_API_KEY"
  | ModelC => `"GOOGLE_API_KEY"
  end.

(** The lines of [console.log] and the errors of [console.error] among the
    events of a run. *)
Definition console_logs (t : list event) : list jsstring :=
  flat_map (fun e => match e with ConsoleLog l => [l] | _ => [] end) t.

Definition console_errors (t : list event) : list error :=
  flat_map (fun e => match e with ConsoleError e' => [e'] | _ => [] end) t.

(** The first property an adapter reads from [response.data], whose value it
    indexes with [0], and the property it reads from that element. *)
Definition list_key (x : provider) : jsstring :=
  match x with
  | ModelA => `"choices"
  | ModelB => `"content"
  | ModelC => `"candidates"
  end.

Definition element_key (x : provider) : jsstring :=
  match x with
  | ModelA => `"message"
  | ModelB => `"text"
  | ModelC => `"content"
  end.

Module Replies.

(** A response body in the shape the provider documents, with the generated
    value [t] in the first element and any elements [more] after it. *)
Definition text_reply (x : provider) (t : value) (more : list value) : value :=
  match x with
  | ModelA =>
      VObj [(`"id", VStr `"chatcmpl-1");
            (`"choices",
             VArr (VObj [(`"index", VNum (number_of_nat 0));
                         (`"message", VObj [(`"role", VStr `"assistant");
                                            (`"content", t)]);
                         (`"finish_reason", VStr `"stop")] :: more))]
  | ModelB =>
      VObj [(`"role", VStr `"assistant");
            (`"content", VArr (VObj [(`"type", VStr `"text"); (`"text", t)] :: more))]
  | ModelC =>
      VObj [(`"candidates",
             VArr (VObj [(`"content",
                          VObj [(`"parts", VArr [VObj [(`"text", t)]]);
                                (`"role", VStr `"model")])] :: more))]
  end.

(** A long prompt: sixty times the letter a. *)
Definition sixty_a : jsstring := repeat 97%N 60.

(** A prompt of one no-break space, and one of one zero-width space. *)
Definition nbsp : jsstring := [0xA0%N].
Definition zwsp : jsstring := [0x200B%N].

(** A world in which every key is set. *)
Definition keyed : World :=
  MkWorld (fun name => Some (`"sk-" ++ name))
    (fun _ => NetworkError `"Network Error")
    `"2024-05-01T12:00:00.000Z".

End Replies.

(** * Properties *)

(** ** The adapters *)

Ltac run_get :=
  repeat match goal with
         | |- context [undefined_or_null ?v] =>
             destruct (undefined_or_null v) eqn:?; cbn
         end.

Lemma call_adapter_run (x : provider) (prompt : value) (w : World) :
  call_adapter x prompt w =
  ([Outbound (provider_request x w prompt)],
   Normal (adapter_result x (network w (provider_request x w prompt)))).
Proof.
  destruct x; cbn -[JsString.lit requestA requestB requestC follow];
    unfold callModelA, callModelB, callModelC, try_catch, bind, getenv,
      axios_post, emit, ask, get, throw, ret, adapter_result;
    cbn -[JsString.lit requestA requestB requestC];
    match goal with |- context [network w ?r] => destruct (network w r) as [msg | s d] end;
    try reflexivity;
    destruct (validate_status s); try reflexivity; cbn -[JsString.lit];
    run_get; reflexivity.
Qed.

(** ** The handler of [POST /api/compare] *)

Lemma strict_equals_length (n : nat) :
  strict_equals (VNum (number_of_nat n)) (VNum (number_of_nat 0)) = Nat.eqb n 0.
Proof. destruct n; reflexivity. Qed.

Lemma not_blank_truthy (s : jsstring) : blank s = false -> to_boolean (VStr s) = true.
Proof. destruct s; [discriminate | reflexivity]. Qed.

Lemma promise_all_adapters (prompt : value) (w : World) :
  promise_all [callModelA prompt; callModelB prompt; callModelC prompt] w =
  (map (fun x => Outbound (provider_request x w prompt)) [ModelA; ModelB; ModelC],
   Normal (map (fun x => adapter_result x (network w (provider_request x w prompt)))
             [ModelA; ModelB; ModelC])).
Proof.
  unfold promise_all. cbn [map].
  change (callModelA prompt w) with (call_adapter ModelA prompt w).
  change (callModelB prompt w) with (call_adapter ModelB prompt w).
  change (callModelC prompt w) with (call_adapter ModelC prompt w).
  rewrite !call_adapter_run. reflexivity.
Qed.

(** A prompt that passes the validation: everything the handler does. *)
Lemma compare_handler_valid (req : express_request) (s : jsstring) (w : World) :
  prompt_of req = Some (VStr s) -> blank s = false ->
  compare_handler req w =
  (CallTrim (VStr s) :: ConsoleLog (log_line w s)
     :: map (fun x => Outbound (provider_request x w (VStr s))) [ModelA; ModelB; ModelC],
   Normal (json 200 (comparison w (VStr s)))).
Proof.
  unfold prompt_of. intros Hp Hb.
  destruct (undefined_or_null (req_body req)) eqn:Hn; [discriminate |].
  injection Hp as Hp.
  unfold compare_handler, destructure. rewrite Hn.
  unfold bind at 1. cbn [ret]. rewrite Hp, (not_blank_truthy _ Hb). cbn [negb].
  unfold bind, try_catch, call_trim, emit, get, ret, throw, date_now_iso,
    call_substring0, res_json.
  cbn -[JsString.lit JsString.trim promise_all json_image strict_equals
        number_of_nat JsString.substring0 List.length].
  change (JsString.eqb `"length" `"length") with true. cbv iota.
  rewrite strict_equals_length. change (Nat.eqb _ 0) with (blank s). rewrite Hb.
  cbn -[JsString.lit JsString.trim promise_all json_image strict_equals
        number_of_nat JsString.substring0 List.length].
  rewrite promise_all_adapters. reflexivity.
Qed.

Ltac run_handler :=
  unfold bind, try_catch, call_trim, emit, get, ret, throw, date_now_iso,
    call_substring0, res_json;
  cbn -[JsString.lit JsString.trim promise_all json_image strict_equals
        number_of_nat JsString.substring0 List.length].

(** A prompt that is falsy: the handler answers at once. *)
Lemma compare_handler_falsy (req : express_request) (v : value) (w : World) :
  prompt_of req = Some v -> to_boolean v = false ->
  compare_handler req w = ([], Normal empty_prompt_response).
Proof.
  unfold prompt_of. intros Hp Hf.
  destruct (undefined_or_null (req_body req)) eqn:Hn; [discriminate |].
  injection Hp as Hp.
  unfold compare_handler, destructure. rewrite Hn.
  unfold bind at 1. cbn [ret]. rewrite Hp, Hf. reflexivity.
Qed.

(** A string that is not empty but blank: [trim] is called, and the handler
    answers without dispatching. *)
Lemma compare_handler_blank (req : express_request) (s : jsstring) (w : World) :
  prompt_of req = Some (VStr s) -> to_boolean (VStr s) = true -> blank s = true ->
  compare_handler req w = ([CallTrim (VStr s)], Normal empty_prompt_response).
Proof.
  unfold prompt_of. intros Hp Ht Hb.
  destruct (undefined_or_null (req_body req)) eqn:Hn; [discriminate |].
  injection Hp as Hp.
  unfold compare_handler, destructure. rewrite Hn.
  unfold bind at 1. cbn [ret]. rewrite Hp, Ht. cbn [negb].
  run_handler.
  change (JsString.eqb `"length" `"length") with true. cbv iota.
  rewrite strict_equals_length. change (Nat.eqb _ 0) with (blank s). rewrite Hb.
  reflexivity.
Qed.

(** A truthy prompt that is no string: the call of [trim] throws, outside of
    the [try] of the handler. *)
Lemma compare_handler_not_string (req : express_request) (v : value) (w : World) :
  prompt_of req = Some v -> to_boolean v = true -> is_string v = false ->
  compare_handler req w =
  ([CallTrim v], Throw (Error TypeError `"prompt.trim is not a function")).
Proof.
  unfold prompt_of. intros Hp Ht Hs.
  destruct (undefined_or_null (req_body req)) eqn:Hn; [discriminate |].
  injection Hp as Hp.
  unfold compare_handler, destructure. rewrite Hn.
  unfold bind at 1. cbn [ret]. rewrite Hp, Ht. cbn [negb].
  destruct v; try discriminate; reflexivity.
Qed.

(** No body to destructure: the handler throws before anything else. *)
Lemma compare_handler_no_body (req : express_request) (w : World) :
  prompt_of req = None ->
  exists e, compare_handler req w = ([], Throw e).
Proof.
  unfold prompt_of. intros Hp.
  destruct (undefined_or_null (req_body req)) eqn:Hn; [| discriminate].
  unfold compare_handler, destructure. rewrite Hn. eexists. reflexivity.
Qed.

(** A run of the handler that does not pass the validation does not look at
    the network. *)
Lemma compare_handler_invalid_any_network (req : express_request) (w : World)
    (net : request -> http_outcome) :
  (forall s, prompt_of req = Some (VStr s) -> blank s = true) ->
  compare_handler req (with_network w net) = compare_handler req w.
Proof.
  intros Hinv.
  destruct (prompt_of req) as [v |] eqn:Hp.
  - destruct (to_boolean v) eqn:Ht.
    + destruct (is_string v) eqn:Hs.
      * destruct v; try discriminate.
        rewrite !(compare_handler_blank req _ Hp Ht (Hinv _ eq_refl)).
        reflexivity.
      * rewrite !(compare_handler_not_string req _ Hp Ht Hs). reflexivity.
    + rewrite !(compare_handler_falsy req _ Hp Ht). reflexivity.
  - unfold prompt_of in Hp.
    destruct (undefined_or_null (req_body req)) eqn:Hn; [| discriminate].
    unfold compare_handler, destructure. rewrite Hn. reflexivity.
Qed.

(** The slot of a provider in the comparison, as the client reads it, is the
    JSON image of the result of its adapter; a slot whose value is
    [undefined] is left out. *)
Lemma slot_comparison (x : provider) (w : World) (prompt : value) :
  slot x (json 200 (comparison w prompt)) =
  json_image (adapter_result x (network w (provider_request x w prompt))).
Proof.
  unfold slot, json, comparison, response_body.
  cbn [map json_image flat_map snd fst app].
  destruct (json_image (adapter_result ModelA _)) eqn:EA;
    destruct (json_image (adapter_result ModelB _)) eqn:EB;
    destruct (json_image (adapter_result ModelC _)) eqn:EC;
    destruct x; rewrite ?EA, ?EB, ?EC; reflexivity.
Qed.

Lemma json_image_string (v : value) : is_string v = true -> json_image v = v.
Proof. destruct v; try discriminate; reflexivity. Qed.

Lemma adapter_result_caught (x : provider) (o : http_outcome) (e : error) :
  caught x o = Some e -> adapter_result x o = error_text x (message e).
Proof.
  unfold caught, adapter_result. destruct o as [msg | s d].
  - intros [= <-]. reflexivity.
  - destruct (validate_status s).
    + destruct (follow (extraction_path x) d); [discriminate |].
      intros [= <-]. reflexivity.
    + intros [= <-]. reflexivity.
Qed.

Lemma adapter_result_text (x : provider) (o : http_outcome) :
  failed_call x o = false -> is_string (adapter_result x o) = true.
Proof.
  unfold failed_call, adapter_result. destruct o as [msg | s d]; [discriminate |].
  destruct (validate_status s); [| discriminate]. cbn [negb orb].
  destruct (follow (extraction_path x) d) as [leaf |]; [| discriminate].
  destruct (is_string leaf); [reflexivity | discriminate].
Qed.

(** The request of a provider does not depend on the network. *)
Lemma provider_request_with_network (x : provider) (w : World)
    (net : request -> http_outcome) (prompt : value) :
  provider_request x (with_network w net) prompt = provider_request x w prompt.
Proof. destruct x; reflexivity. Qed.

(** Either the prompt of a request passes the validation, or it does not. *)
Lemma prompt_valid_or_not (req : express_request) :
  (exists s, prompt_of req = Some (VStr s) /\ blank s = false)
  \/ (forall s, prompt_of req = Some (VStr s) -> blank s = true).
Proof.
  destruct (prompt_of req) as [[| | | | s | |] |];
    try (right; intros s' H; discriminate).
  destruct (blank s) eqn:Hb.
  - right. intros s' [= <-]. exact Hb.
  - left. exists s. split; [reflexivity | exact Hb].
Qed.

(** ** The claims about the adapters *)

Import Examples.

(** C1, as stated, fails: provider A answers 200 with a message whose content
    is [null] (an unexpected response shape, a failure in the sense of the
    specification); [callModelA] catches nothing and returns [null], which is
    no string of the form "Error calling Model A: ...". *)
Lemma null_content_is_returned_as_is :
  failed_call ModelA
    (network null_content (provider_request ModelA null_content (VStr `"hi"))) = true
  /\ outcome (callModelA (VStr `"hi")) null_content = Normal VNull
  /\ ~ reports_failure ModelA (outcome (callModelA (VStr `"hi")) null_content).
Proof.
  split; [reflexivity |]. split; [reflexivity |].
  intros [msg H]. vm_compute in H. discriminate H.
Qed.

(** C1, amended: for every prompt and every outcome of the HTTP call, an
    adapter ends normally, never with an exception or a rejection. A network
    error, a status outside 2xx and a response whose path runs into
    [undefined] or [null] are caught and give the string
    "Error calling <label>: <message>" with the message of the error. A 2xx
    response whose path can be read gives the value at the end of the path,
    as it is. *)
Theorem adapter_contains_failures (x : provider) (prompt : value) (w : World) :
  outcome (call_adapter x prompt) w =
  Normal
    match network w (provider_request x w prompt) with
    | NetworkError msg =>
        VStr (`"Error calling " ++ provider_label x ++ `": " ++ msg)
    | HttpReply s d =>
        if validate_status s
        then match follow (extraction_path x) d with
             | Normal leaf => leaf
             | Throw e =>
                 VStr (`"Error calling " ++ provider_label x ++ `": " ++ message e)
             end
        else VStr (`"Error calling " ++ provider_label x ++ `": "
                   ++ `"Request failed with status code " ++ JsString.of_N s)
    end.
Proof.
  unfold outcome. rewrite call_adapter_run. reflexivity.
Qed.

(** C6, as stated, fails: the request [callModelC] sends carries no
    max-output-token cap, and no number at all. *)
Lemma gemini_request_has_no_token_cap :
  outbound (trace (callModelC (VStr `"hi")) offline)
  = [provider_request ModelC offline (VStr `"hi")]
  /\ carries_token_cap ModelC (provider_request ModelC offline (VStr `"hi")) = false
  /\ numbers_of (body (provider_request ModelC offline (VStr `"hi"))) = [].
Proof. repeat split. Qed.

(** C6, amended: every adapter sends one request. Those of A and B name the
    model in their body and carry [max_tokens: 500]. That of C names its model
    in the address, its body holds the prompt and nothing else, and it
    carries no max-output-token cap. *)
Theorem adapter_request_configuration (prompt : value) (w : World) :
  (forall x, outbound (trace (call_adapter x prompt) w) = [provider_request x w prompt])
  /\ at_path [`"model"] (body (provider_request ModelA w prompt)) = VStr `"gpt-4"
  /\ token_cap ModelA (provider_request ModelA w prompt) = VNum (number_of_nat 500)
  /\ at_path [`"model"] (body (provider_request ModelB w prompt))
     = VStr `"claude-3-opus-20240229"
  /\ token_cap ModelB (provider_request ModelB w prompt) = VNum (number_of_nat 500)
  /\ url (provider_request ModelC w prompt)
     = `"https://generativelanguage.googleapis.com/v1beta/models/gemini-pro:generateContent?key="
       ++ env_text (process_env w `"GOOGLE_API_KEY")
  /\ body (provider_request ModelC w prompt)
     = VObj [(`"contents", VArr [VObj [(`"parts", VArr [VObj [(`"text", prompt)]])]])]
  /\ carries_token_cap ModelC (provider_request ModelC w prompt) = false.
Proof.
  split.
  { intros x. unfold trace. rewrite call_adapter_run. reflexivity. }
  repeat split.
Qed.

(** ** The claims about [POST /api/compare] *)

(** C2, as stated, fails: the prompt is "  hi  ", and provider C answers 200
    with a part that has no text; [callModelC] returns [undefined], and the
    body of the 200 response has the slots [modelA] and [modelB] only. *)
Lemma textless_part_leaves_slot_out :
  prompt_of (post (VStr padded_hi)) = Some (VStr padded_hi)
  /\ blank padded_hi = false
  /\ outcome (compare_handler (post (VStr padded_hi))) textless_part
     = Normal (Respond 200 (VObj [(`"modelA", VStr `"Hello");
                                  (`"modelB", VStr `"Hello")]))
  /\ is_string (slot ModelC (Respond 200 (VObj [(`"modelA", VStr `"Hello");
                                               (`"modelB", VStr `"Hello")]))) = false.
Proof. repeat split. Qed.

(** C2, amended: for every prompt that is a string and not blank, the handler
    answers 200, and the slot of each provider holds the result of its adapter
    as JSON prints it. The slot is a string whenever the call of the provider
    raised an error (the error string) or its response has a text at the path
    of the provider. *)
Theorem compare_answers_200_with_adapter_results
    (req : express_request) (s : jsstring) (w : World) :
  prompt_of req = Some (VStr s) -> blank s = false ->
  exists r,
    outcome (compare_handler req) w = Normal r
    /\ status r = 200%N
    /\ forall x,
        let o := network w (provider_request x w (VStr s)) in
        slot x r = json_image (adapter_result x o)
        /\ (failed_call x o = false -> is_string (slot x r) = true)
        /\ (forall e, caught x o = Some e -> slot x r = error_text x (message e)).
Proof.
  intros Hp Hb. exists (json 200 (comparison w (VStr s))).
  unfold outcome. rewrite (compare_handler_valid req w Hp Hb).
  split; [reflexivity |]. split; [reflexivity |].
  intros x. set (o := network w (provider_request x w (VStr s))).
  rewrite slot_comparison. fold o. split; [reflexivity |]. split.
  - intros Hf. rewrite (json_image_string _ (adapter_result_text x o Hf)).
    apply adapter_result_text, Hf.
  - intros e He. rewrite (adapter_result_caught x o He). reflexivity.
Qed.

(** The prompt "  hi  " in the world where all three providers answer: a 200
    whose three slots are the three texts. *)
Lemma compare_answers_200_with_adapter_results_witness :
  exists r,
    outcome (compare_handler (post (VStr padded_hi))) online = Normal r
    /\ status r = 200%N
    /\ slot ModelA r = hello /\ slot ModelB r = hello /\ slot ModelC r = hello.
Proof.
  destruct (@compare_answers_200_with_adapter_results
              (post (VStr padded_hi)) padded_hi online eq_refl eq_refl)
    as (r & Hr & Hs & Hx).
  exists r. split; [exact Hr |]. split; [exact Hs |].
  split; [| split].
  - exact (proj1 (Hx ModelA)).
  - exact (proj1 (Hx ModelB)).
  - exact (proj1 (Hx ModelC)).
Defined.

(** C3: the request [{ "prompt": 42 }] has a prompt that is no string; the
    handler evaluates [prompt.trim()], which throws a [TypeError] outside of
    its [try]: the promise of the handler rejects and no 400 is sent. *)
Theorem numeric_prompt_is_not_answered_400 (w : World) :
  compare_handler (post forty_two) w =
  ([CallTrim forty_two],
   Throw (Error TypeError `"prompt.trim is not a function")).
Proof. reflexivity. Qed.




(** C5: fix a request and a world, and let a second run differ from the first
    in the network only, which answers the requests of every provider other
    than [x] as before and the requests of [x] in any way. Both runs issue
    the same requests and cause the same events, and for every provider other
    than [x] the status of the response and the slot of that provider are the
    same in both runs. *)
Theorem adapters_do_not_interfere
    (req : express_request) (w : World) (net : request -> http_outcome)
    (x : provider) :
  (forall y p, y <> x ->
     net (provider_request y w p) = network w (provider_request y w p)) ->
  trace (compare_handler req) (with_network w net) = trace (compare_handler req) w
  /\ forall y, y <> x ->
       view y (outcome (compare_handler req) (with_network w net))
       = view y (outcome (compare_handler req) w).
Proof.
  intros Hsame. unfold trace, outcome.
  destruct (prompt_valid_or_not req) as [(s & Hp & Hb) | Hinv].
  - rewrite !(compare_handler_valid req _ Hp Hb). cbn [fst snd view status].
    split.
    + cbn [map]. rewrite !provider_request_with_network. reflexivity.
    + intros y Hy. rewrite !slot_comparison.
      rewrite provider_request_with_network. cbn [with_network network].
      rewrite (Hsame y _ Hy). reflexivity.
  - rewrite (compare_handler_invalid_any_network req w net Hinv).
    split; [reflexivity | intros; reflexivity].
Qed.

(** Provider A answers in one run and cannot be reached in the other: the
    events and the views of B and C agree, the view of A does not. *)
Lemma adapters_do_not_interfere_witness :
  trace (compare_handler (post (VStr padded_hi))) (with_network online without_a)
  = trace (compare_handler (post (VStr padded_hi))) online
  /\ (forall y, y <> ModelA ->
        view y (outcome (compare_handler (post (VStr padded_hi)))
                  (with_network online without_a))
        = view y (outcome (compare_handler (post (VStr padded_hi))) online))
  /\ view ModelA (outcome (compare_handler (post (VStr padded_hi)))
                    (with_network online without_a))
     <> view ModelA (outcome (compare_handler (post (VStr padded_hi))) online).
Proof.
  assert (Hsame : forall y p, y <> ModelA ->
             without_a (provider_request y online p)
             = network online (provider_request y online p)).
  { intros [] p Hy; [contradiction Hy |..]; reflexivity. }
  destruct (@adapters_do_not_interfere (post (VStr padded_hi)) online without_a
              ModelA Hsame) as [Ht Hv].
  split; [exact Ht |]. split; [exact Hv |].
  intros H. vm_compute in H. discriminate H.
Defined.

(** C7: on a prompt that passes the validation, the handler runs the three
    adapters on that one prompt (its requests are theirs, in the order A, B,
    C), each adapter ends with a value, and the body handed to [res.json]
    with the status 200 binds the value of A to [modelA], of B to [modelB] and
    of C to [modelC]. *)
Theorem compare_fans_out_and_binds
    (req : express_request) (s : jsstring) (w : World) :
  prompt_of req = Some (VStr s) -> blank s = false ->
  outbound (trace (compare_handler req) w)
  = outbound (trace (callModelA (VStr s)) w)
    ++ outbound (trace (callModelB (VStr s)) w)
    ++ outbound (trace (callModelC (VStr s)) w)
  /\ exists a b c,
       outcome (callModelA (VStr s)) w = Normal a
       /\ outcome (callModelB (VStr s)) w = Normal b
       /\ outcome (callModelC (VStr s)) w = Normal c
       /\ outcome (compare_handler req) w
          = Normal (Respond 200 (json_image (VObj [(`"modelA", a);
                                                   (`"modelB", b);
                                                   (`"modelC", c)]))).
Proof.
  intros Hp Hb. unfold trace, outcome.
  rewrite (compare_handler_valid req w Hp Hb).
  change (callModelA (VStr s) w) with (call_adapter ModelA (VStr s) w).
  change (callModelB (VStr s) w) with (call_adapter ModelB (VStr s) w).
  change (callModelC (VStr s) w) with (call_adapter ModelC (VStr s) w).
  rewrite !call_adapter_run. split; [reflexivity |].
  do 3 eexists. repeat split.
Qed.

(** The prompt "  hi  " in the world where all three providers answer. *)
Lemma compare_fans_out_and_binds_witness :
  outbound (trace (compare_handler (post (VStr padded_hi))) online)
  = [requestA None (VStr padded_hi); requestB None (VStr padded_hi);
     requestC None (VStr padded_hi)]
  /\ outcome (compare_handler (post (VStr padded_hi))) online
     = Normal (Respond 200 (VObj [(`"modelA", hello); (`"modelB", hello);
                                  (`"modelC", hello)])).
Proof.
  destruct (@compare_fans_out_and_binds (post (VStr padded_hi)) padded_hi online
              eq_refl eq_refl) as (Ht & a & b & c & Ha & Hb & Hc & Hr).
  split.
  - rewrite Ht. reflexivity.
  - injection Ha as <-. injection Hb as <-. injection Hc as <-.
    rewrite Hr. reflexivity.
Defined.

(** C9: on a prompt that passes the validation, [trim] is called once, in the
    check, and its result goes nowhere else: the three requests are those of
    the untrimmed prompt, and the text at the place of the prompt in the body
    of each of them is the prompt as it was received. *)
Theorem prompt_is_forwarded_untrimmed
    (req : express_request) (s : jsstring) (w : World) :
  prompt_of req = Some (VStr s) -> blank s = false ->
  trim_calls (trace (compare_handler req) w) = [VStr s]
  /\ outbound (trace (compare_handler req) w)
     = map (fun x => provider_request x w (VStr s)) [ModelA; ModelB; ModelC]
  /\ forall x,
       follow (prompt_path x) (body (provider_request x w (VStr s))) = Normal (VStr s).
Proof.
  intros Hp Hb. unfold trace. rewrite (compare_handler_valid req w Hp Hb).
  split; [reflexivity |]. split; [reflexivity |].
  intros []; reflexivity.
Qed.

(** The prompt "  hi  ", whose trimmed form is "hi", goes out with its blanks. *)
Lemma prompt_is_forwarded_untrimmed_witness :
  JsString.trim padded_hi = `"hi"
  /\ outbound (trace (compare_handler (post (VStr padded_hi))) online)
     = map (fun x => provider_request x online (VStr `"  hi  ")) [ModelA; ModelB; ModelC]
  /\ forall x,
       follow (prompt_path x) (body (provider_request x online (VStr `"  hi  ")))
       = Normal (VStr `"  hi  ").
Proof.
  split; [reflexivity |].
  exact (proj2 (@prompt_is_forwarded_untrimmed (post (VStr padded_hi)) padded_hi
                  online eq_refl eq_refl)).
Defined.

(** C10: the check tests the prompt for falsiness first. For every prompt
    that is falsy, whatever its type, the handler answers 400 with
    [{ "error": "Prompt cannot be empty" }]; it does not throw, does not call
    [trim] and sends nothing out. *)
Theorem falsy_prompt_short_circuits
    (req : express_request) (v : value) (w : World) :
  prompt_of req = Some v -> to_boolean v = false ->
  outcome (compare_handler req) w
  = Normal (Respond 400 (VObj [(`"error", VStr `"Prompt cannot be empty")]))
  /\ trim_calls (trace (compare_handler req) w) = []
  /\ outbound (trace (compare_handler req) w) = [].
Proof.
  intros Hp Hf. unfold outcome, trace.
  rewrite (compare_handler_falsy req w Hp Hf). repeat split.
Qed.

(** The falsy prompts of JSON: the absent field, [null], [false], [0], [-0]
    and the empty string. *)
Lemma falsy_prompt_short_circuits_witness :
  Forall (fun req =>
            outcome (compare_handler req) online
            = Normal (Respond 400 (VObj [(`"error", VStr `"Prompt cannot be empty")]))
            /\ trim_calls (trace (compare_handler req) online) = []
            /\ outbound (trace (compare_handler req) online) = [])
    [ExpressRequest (VObj []); post VNull; post (VBool false);
     post (VNum (S754_zero false)); post (VNum (S754_zero true)); post (VStr [])].
Proof.
  apply Forall_cons;
    [exact (@falsy_prompt_short_circuits (ExpressRequest (VObj [])) VUndefined online eq_refl eq_refl) |].
  apply Forall_cons;
    [exact (@falsy_prompt_short_circuits (post VNull) VNull online eq_refl eq_refl) |].
  apply Forall_cons;
    [exact (@falsy_prompt_short_circuits (post (VBool false)) (VBool false) online eq_refl eq_refl) |].
  apply Forall_cons;
    [exact (@falsy_prompt_short_circuits (post (VNum (S754_zero false)))
              (VNum (S754_zero false)) online
              eq_refl eq_refl) |].
  apply Forall_cons;
    [exact (@falsy_prompt_short_circuits (post (VNum (S754_zero true)))
              (VNum (S754_zero true)) online
              eq_refl eq_refl) |].
  apply Forall_cons;
    [exact (@falsy_prompt_short_circuits (post (VStr [])) (VStr []) online eq_refl eq_refl) |].
  apply Forall_nil.
Defined.

(** ** The claim about [GET /api/health] *)

(** C8: for every request and in every world, the handler of
    [GET /api/health] answers 200 with [{ "status": "Server is running" }],
    and does nothing else. *)
Theorem health_always_answers (req : express_request) (w : World) :
  health_handler req w =
  ([], Normal (Respond 200 (VObj [(`"status", VStr `"Server is running")]))).
Proof. reflexivity. Qed.

(** * Further properties of the code *)

Import Replies.

(** ** Blank strings *)

Lemma trim_start_nil (s : jsstring) :
  forallb JsString.is_white_space s = true -> JsString.trim_start s = [].
Proof.
  induction s as [| c r IH]; cbn; [reflexivity |].
  destruct (JsString.is_white_space c); [exact IH | discriminate].
Qed.

Lemma trim_start_keeps (s : jsstring) :
  forallb JsString.is_white_space s = false ->
  forallb JsString.is_white_space (JsString.trim_start s) = false
  /\ JsString.trim_start s <> [].
Proof.
  induction s as [| c r IH]; cbn; [discriminate |].
  destruct (JsString.is_white_space c) eqn:Hc; cbn.
  - exact IH.
  - intros _. rewrite Hc. split; [reflexivity | discriminate].
Qed.

Lemma forallb_rev {A} (f : A -> bool) (l : list A) :
  forallb f (rev l) = forallb f l.
Proof.
  induction l as [| a r IH]; [reflexivity |].
  cbn. rewrite forallb_app, IH. cbn. rewrite andb_true_r. apply andb_comm.
Qed.

(** A string is blank exactly when all its code units are white space. *)
Lemma blank_all_white_space (s : jsstring) :
  blank s = forallb JsString.is_white_space s.
Proof.
  unfold blank, JsString.trim, JsString.trim_end.
  destruct (forallb JsString.is_white_space s) eqn:Hs.
  - rewrite (trim_start_nil s Hs). reflexivity.
  - destruct (trim_start_keeps s Hs) as [Hk _].
    rewrite <- forallb_rev in Hk.
    destruct (trim_start_keeps _ Hk) as [_ Hne].
    rewrite length_rev.
    destruct (JsString.trim_start (rev (JsString.trim_start s)));
      [contradiction Hne |]; reflexivity.
Qed.

(** ** The validation of the prompt *)

(** The five ways a run of the handler can go, by the prompt of the request. *)
Lemma compare_handler_cases (req : express_request) (w : World) :
  (prompt_of req = None /\ exists e, compare_handler req w = ([], Throw e))
  \/ (exists v, prompt_of req = Some v /\ to_boolean v = false
                /\ compare_handler req w = ([], Normal empty_prompt_response))
  \/ (exists s, prompt_of req = Some (VStr s) /\ to_boolean (VStr s) = true
                /\ blank s = true
                /\ compare_handler req w
                   = ([CallTrim (VStr s)], Normal empty_prompt_response))
  \/ (exists v, prompt_of req = Some v /\ to_boolean v = true /\ is_string v = false
                /\ compare_handler req w
                   = ([CallTrim v],
                      Throw (Error TypeError `"prompt.trim is not a function")))
  \/ (exists s, prompt_of req = Some (VStr s) /\ blank s = false
                /\ compare_handler req w
                   = (CallTrim (VStr s) :: ConsoleLog (log_line w s)
                        :: map (fun x => Outbound (provider_request x w (VStr s)))
                             [ModelA; ModelB; ModelC],
                      Normal (json 200 (comparison w (VStr s))))).
Proof.
  destruct (prompt_of req) as [v |] eqn:Hp.
  - destruct (to_boolean v) eqn:Ht.
    + destruct (is_string v) eqn:Hs.
      * destruct v as [| | | | s | |]; try discriminate.
        destruct (blank s) eqn:Hb.
        -- right; right; left. exists s.
           repeat split; try assumption.
           exact (compare_handler_blank req w Hp Ht Hb).
        -- right; right; right; right. exists s.
           repeat split; try assumption.
           exact (compare_handler_valid req w Hp Hb).
      * right; right; right; left. exists v.
        repeat split; try assumption.
        exact (compare_handler_not_string req w Hp Ht Hs).
    + right; left. exists v.
      repeat split; try assumption.
      exact (compare_handler_falsy req w Hp Ht).
  - left. split; [reflexivity |]. apply compare_handler_no_body, Hp.
Qed.

(** X1: a prompt that is a string is judged by its code units alone. When
    every code unit is white space (the empty string included) the handler
    answers 400 and sends nothing out; when one code unit is not, it answers
    200 and sends three requests. *)
Theorem string_prompt_is_judged_by_its_code_units
    (req : express_request) (s : jsstring) (w : World) :
  prompt_of req = Some (VStr s) ->
  exists r,
    outcome (compare_handler req) w = Normal r
    /\ status r = (if forallb JsString.is_white_space s then 400 else 200)%N
    /\ List.length (outbound (trace (compare_handler req) w))
       = (if forallb JsString.is_white_space s then 0 else 3).
Proof.
  intros Hp. unfold outcome, trace.
  rewrite <- blank_all_white_space.
  destruct (blank s) eqn:Hb.
  - destruct (to_boolean (VStr s)) eqn:Ht.
    + rewrite (compare_handler_blank req w Hp Ht Hb).
      eexists. repeat split.
    + rewrite (compare_handler_falsy req w Hp Ht).
      eexists. repeat split.
  - rewrite (compare_handler_valid req w Hp Hb).
    eexists. repeat split.
Qed.

(** A no-break space alone is blank; a zero-width space alone is not. *)
Lemma string_prompt_is_judged_by_its_code_units_witness :
  (exists r, outcome (compare_handler (post (VStr nbsp))) offline = Normal r
             /\ status r = 400%N
             /\ List.length (outbound (trace (compare_handler (post (VStr nbsp)))
                                         offline)) = 0)
  /\ (exists r, outcome (compare_handler (post (VStr zwsp))) offline = Normal r
                /\ status r = 200%N
                /\ List.length (outbound (trace (compare_handler (post (VStr zwsp)))
                                            offline)) = 3).
Proof.
  split.
  - exact (@string_prompt_is_judged_by_its_code_units
             (post (VStr nbsp)) nbsp offline eq_refl).
  - exact (@string_prompt_is_judged_by_its_code_units
             (post (VStr zwsp)) zwsp offline eq_refl).
Defined.

(** X2: every prompt that is truthy and no string (a number other than 0, the
    value true, an array, an object) makes the handler throw the [TypeError]
    of [prompt.trim()]: no response is sent, nothing is logged and no request
    goes out. *)
Theorem truthy_prompt_that_is_no_string_throws
    (req : express_request) (v : value) (w : World) :
  prompt_of req = Some v -> to_boolean v = true -> is_string v = false ->
  outcome (compare_handler req) w
  = Throw (Error TypeError `"prompt.trim is not a function")
  /\ outbound (trace (compare_handler req) w) = []
  /\ console_logs (trace (compare_handler req) w) = [].
Proof.
  intros Hp Ht Hs. unfold outcome, trace.
  rewrite (compare_handler_not_string req w Hp Ht Hs). repeat split.
Qed.

(** The prompts [true], [[]] and [{}]. *)
Lemma truthy_prompt_that_is_no_string_throws_witness :
  Forall (fun v =>
            outcome (compare_handler (post v)) online
            = Throw (Error TypeError `"prompt.trim is not a function")
            /\ outbound (trace (compare_handler (post v)) online) = []
            /\ console_logs (trace (compare_handler (post v)) online) = [])
    [VBool true; VArr []; VObj []].
Proof.
  apply Forall_cons;
    [exact (@truthy_prompt_that_is_no_string_throws
              (post (VBool true)) (VBool true) online eq_refl eq_refl eq_refl) |].
  apply Forall_cons;
    [exact (@truthy_prompt_that_is_no_string_throws
              (post (VArr [])) (VArr []) online eq_refl eq_refl eq_refl) |].
  apply Forall_cons;
    [exact (@truthy_prompt_that_is_no_string_throws
              (post (VObj [])) (VObj []) online eq_refl eq_refl eq_refl) |].
  apply Forall_nil.
Defined.

(** X3: the [catch] of the handler is never entered. For every request and
    every world, [console.error] is not called, and a response the handler
    sends has the status 200 or 400, never 500. *)
Theorem handler_never_answers_500 (req : express_request) (w : World) :
  console_errors (trace (compare_handler req) w) = []
  /\ forall r, outcome (compare_handler req) w = Normal r ->
               status r = 200%N \/ status r = 400%N.
Proof.
  unfold trace, outcome.
  destruct (compare_handler_cases req w)
    as [[_ [e H]] | [(v & _ & _ & H) | [(s & _ & _ & _ & H)
       | [(v & _ & _ & _ & H) | (s & _ & _ & H)]]]];
    rewrite H; (split; [reflexivity |]); cbn [snd]; intros r Hr;
    try discriminate Hr; injection Hr as <-; auto.
Qed.

(** X4: requests go out only after the validation has passed. For every
    request and every world the handler sends either nothing, or the three
    requests of the adapters for a prompt that is a string and not blank. *)
Theorem requests_only_for_a_valid_prompt (req : express_request) (w : World) :
  outbound (trace (compare_handler req) w) = []
  \/ exists s,
       prompt_of req = Some (VStr s) /\ blank s = false
       /\ outbound (trace (compare_handler req) w)
          = map (fun x => provider_request x w (VStr s)) [ModelA; ModelB; ModelC].
Proof.
  unfold trace.
  destruct (compare_handler_cases req w)
    as [[_ [e H]] | [(v & _ & _ & H) | [(s & _ & _ & _ & H)
       | [(v & _ & _ & _ & H) | (s & Hp & Hb & H)]]]];
    rewrite H; try (left; reflexivity).
  right. exists s. repeat split; assumption.
Qed.

(** X5: what the handler does never depends on what the providers answer.
    For every request, the events of a run (the call of [trim], the line
    logged, the requests sent) are the same under any two networks: an
    answer causes no retry, no further request and no further log. *)
Theorem events_do_not_depend_on_the_answers
    (req : express_request) (w : World) (net : request -> http_outcome) :
  trace (compare_handler req) (with_network w net) = trace (compare_handler req) w.
Proof.
  unfold trace.
  destruct (prompt_valid_or_not req) as [(s & Hp & Hb) | Hinv].
  - rewrite !(compare_handler_valid req _ Hp Hb). cbn [fst map].
    rewrite !provider_request_with_network. reflexivity.
  - rewrite (compare_handler_invalid_any_network req w net Hinv). reflexivity.
Qed.

(** ** The log line *)

(** X6: on a prompt that passes the validation the handler logs one line,
    after the check and before the first request: the time between brackets,
    then the first 50 code units of the prompt between double quotes, followed
    by three dots. A prompt of at most 50 code units is logged whole, and the
    requests carry the whole prompt whatever its length. *)
Theorem prompt_is_logged_before_dispatch
    (req : express_request) (s : jsstring) (w : World) :
  prompt_of req = Some (VStr s) -> blank s = false ->
  let line excerpt :=
    `"[" ++ now_iso w ++ `"] Comparing prompt: "
    ++ JsString.dquote ++ excerpt ++ `"..." ++ JsString.dquote in
  trace (compare_handler req) w
  = CallTrim (VStr s) :: ConsoleLog (line (firstn 50 s))
      :: map (fun x => Outbound (provider_request x w (VStr s)))
           [ModelA; ModelB; ModelC]
  /\ List.length (firstn 50 s) <= 50
  /\ (List.length s <= 50 -> console_logs (trace (compare_handler req) w) = [line s]).
Proof.
  intros Hp Hb line. unfold trace.
  rewrite (compare_handler_valid req w Hp Hb). cbn [fst].
  split; [reflexivity |]. split.
  - rewrite length_firstn. apply Nat.le_min_l.
  - intros Hlen. cbn [console_logs flat_map map app].
    unfold log_line, JsString.substring0, line.
    rewrite (firstn_all2 s Hlen). reflexivity.
Qed.

(** A prompt of sixty letters: fifty of them are logged, sixty are sent. *)
Lemma prompt_is_logged_before_dispatch_witness :
  console_logs (trace (compare_handler (post (VStr sixty_a))) offline)
  = [`"[2024-05-01T12:00:00.000Z] Comparing prompt: " ++ JsString.dquote
     ++ repeat 97%N 50 ++ `"..." ++ JsString.dquote]
  /\ outbound (trace (compare_handler (post (VStr sixty_a))) offline)
     = map (fun x => provider_request x offline (VStr (repeat 97%N 60)))
         [ModelA; ModelB; ModelC].
Proof.
  destruct (@prompt_is_logged_before_dispatch (post (VStr sixty_a)) sixty_a offline
              eq_refl eq_refl) as (Ht & _ & _).
  rewrite Ht. split; reflexivity.
Defined.

(** ** What the handler reads of a request *)

(** X7: the handler reads the property [prompt] of the body and nothing else:
    two requests with the same prompt run alike, whatever else their bodies
    hold. *)
Theorem only_the_prompt_is_read
    (req1 req2 : express_request) (v : value) (w : World) :
  prompt_of req1 = Some v -> prompt_of req2 = Some v ->
  compare_handler req1 w = compare_handler req2 w.
Proof.
  unfold prompt_of. intros H1 H2.
  destruct (undefined_or_null (req_body req1)) eqn:N1; [discriminate |].
  destruct (undefined_or_null (req_body req2)) eqn:N2; [discriminate |].
  injection H1 as H1. injection H2 as H2.
  unfold compare_handler, destructure. rewrite N1, N2.
  unfold bind at 1. unfold bind at 6. cbn [ret]. rewrite H1, H2. reflexivity.
Qed.

(** A body with further fields, before and after the prompt. *)
Lemma only_the_prompt_is_read_witness :
  compare_handler
    (ExpressRequest (VObj [(`"model", VStr `"gpt-3.5"); (`"prompt", VStr padded_hi);
                           (`"max_tokens", VNum (number_of_nat 9))])) online
  = compare_handler (post (VStr padded_hi)) online.
Proof.
  exact (@only_the_prompt_is_read
           (ExpressRequest (VObj [(`"model", VStr `"gpt-3.5");
                                  (`"prompt", VStr padded_hi);
                                  (`"max_tokens", VNum (number_of_nat 9))]))
           (post (VStr padded_hi)) (VStr padded_hi) online eq_refl eq_refl).
Defined.

(** ** Credentials and endpoints *)

Lemma call_adapter_same_key (x : provider) (prompt : value) (w1 w2 : World) :
  process_env w1 (env_key x) = process_env w2 (env_key x) ->
  provider_request x w1 prompt = provider_request x w2 prompt.
Proof. destruct x; cbn [provider_request env_key]; intros ->; reflexivity. Qed.

(** X8: an adapter reads its own key of the environment and no other
    variable: in two worlds with the same network that agree on the key of a
    provider, the adapter of that provider sends the same request and returns
    the same result, whatever the other variables are. *)
Theorem adapter_reads_its_own_key_only
    (x : provider) (prompt : value) (w1 w2 : World) :
  (forall r, network w1 r = network w2 r) ->
  process_env w1 (env_key x) = process_env w2 (env_key x) ->
  call_adapter x prompt w1 = call_adapter x prompt w2.
Proof.
  intros Hnet Hkey. rewrite !call_adapter_run.
  rewrite (call_adapter_same_key x prompt w1 w2 Hkey), Hnet. reflexivity.
Qed.

(** The keys of B and C change, that of A does not. *)
Lemma adapter_reads_its_own_key_only_witness :
  call_adapter ModelA (VStr padded_hi)
    (MkWorld (fun name => if JsString.eqb name `"OPENAI_API_KEY"
                          then Some `"sk-1" else None)
       (network online) stamp)
  = call_adapter ModelA (VStr padded_hi)
      (MkWorld (fun name => if JsString.eqb name `"OPENAI_API_KEY"
                            then Some `"sk-1" else Some `"other")
         (network online) stamp).
Proof.
  exact (@adapter_reads_its_own_key_only ModelA (VStr padded_hi)
           (MkWorld (fun name => if JsString.eqb name `"OPENAI_API_KEY"
                                 then Some `"sk-1" else None)
              (network online) stamp)
           (MkWorld (fun name => if JsString.eqb name `"OPENAI_API_KEY"
                                 then Some `"sk-1" else Some `"other")
              (network online) stamp)
           (fun r => eq_refl) eq_refl).
Defined.

(** X9: the three adapters call three different addresses: whatever the
    keys and the prompts, the request of one provider never has the address
    of the request of another. *)
Theorem providers_have_distinct_addresses
    (x y : provider) (w w' : World) (p p' : value) :
  x <> y -> url (provider_request x w p) <> url (provider_request y w' p').
Proof.
  intros Hxy H. apply Hxy.
  destruct x, y; try reflexivity; cbn in H; discriminate H.
Qed.

(** The address of C with the key of [keyed] is not the address of A. *)
Lemma providers_have_distinct_addresses_witness :
  url (provider_request ModelC keyed (VStr padded_hi))
  <> url (provider_request ModelA offline VNull).
Proof.
  apply (@providers_have_distinct_addresses ModelC ModelA keyed offline
           (VStr padded_hi) VNull).
  discriminate.
Defined.

(** X10: a missing credential is not checked before the call. When the keys
    are not set, every adapter still sends its request: A with the header
    [Authorization: Bearer undefined], B with an [x-api-key] that is
    [undefined], C with [key=undefined] in the address. *)
Theorem missing_keys_are_sent_as_undefined (prompt : value) (w : World) :
  (forall x, process_env w (env_key x) = None) ->
  (forall x, outbound (trace (call_adapter x prompt) w) = [provider_request x w prompt])
  /\ own_property (headers (provider_request ModelA w prompt)) `"Authorization"
     = VStr `"Bearer undefined"
  /\ own_property (headers (provider_request ModelB w prompt)) `"x-api-key"
     = VUndefined
  /\ url (provider_request ModelC w prompt)
     = `"https://generativelanguage.googleapis.com/v1beta/models/gemini-pro:generateContent?key=undefined".
Proof.
  intros Hnone. split.
  { intros x. unfold trace. rewrite call_adapter_run. reflexivity. }
  pose proof (Hnone ModelA) as HA. pose proof (Hnone ModelB) as HB.
  pose proof (Hnone ModelC) as HC. cbn [env_key] in HA, HB, HC.
  cbn [provider_request]. rewrite HA, HB, HC. repeat split.
Qed.

Lemma missing_keys_are_sent_as_undefined_witness :
  own_property (headers (provider_request ModelA offline (VStr padded_hi)))
    `"Authorization" = VStr `"Bearer undefined"
  /\ own_property (headers (provider_request ModelB offline (VStr padded_hi)))
       `"x-api-key" = VUndefined.
Proof.
  destruct (@missing_keys_are_sent_as_undefined (VStr padded_hi) offline
              (fun x => eq_refl)) as (_ & HA & HB & _).
  split; [exact HA | exact HB].
Defined.

(** ** The replies of the providers *)

(** X11: a reply in the shape the provider documents gives back the
    generated value of its first element, unchanged, for every 2xx status and
    whatever elements follow the first: the adapters read index 0 and never
    look at a second choice, block or candidate. *)
Theorem documented_reply_returns_first_text
    (x : provider) (prompt t : value) (more : list value) (s : N) (w : World) :
  validate_status s = true ->
  network w (provider_request x w prompt) = HttpReply s (text_reply x t more) ->
  outcome (call_adapter x prompt) w = Normal t.
Proof.
  intros Hs Hnet. unfold outcome. rewrite call_adapter_run. cbn [snd].
  rewrite Hnet. unfold adapter_result. rewrite Hs.
  destruct x; reflexivity.
Qed.

Lemma documented_reply_returns_first_text_witness :
  outcome (callModelB (VStr padded_hi))
    (MkWorld no_keys
       (fun _ => HttpReply 201 (text_reply ModelB hello [VObj [(`"text", VStr `"second")]]))
       stamp)
  = Normal hello.
Proof.
  exact (@documented_reply_returns_first_text ModelB (VStr padded_hi) hello
           [VObj [(`"text", VStr `"second")]] 201
           (MkWorld no_keys
              (fun _ => HttpReply 201
                          (text_reply ModelB hello [VObj [(`"text", VStr `"second")]]))
              stamp)
           eq_refl eq_refl).
Defined.

(** X12: a result does not tell a failure from a success. For every provider
    and every message, the adapter returns the same string when the network
    fails with that message and when the provider answers 200 with that very
    string as its generated text. *)
Theorem error_string_can_be_a_generated_text
    (x : provider) (prompt : value) (w : World) (msg : jsstring) :
  outcome (call_adapter x prompt) (with_network w (fun _ => NetworkError msg))
  = outcome (call_adapter x prompt)
      (with_network w (fun _ => HttpReply 200 (text_reply x (error_text x msg) [])))
  /\ failed_call x (HttpReply 200 (text_reply x (error_text x msg) [])) = false.
Proof.
  unfold outcome. rewrite !call_adapter_run. cbn [snd with_network network].
  split; destruct x; reflexivity.
Qed.

(** X13: an empty list of choices, blocks or candidates. When the body of a
    2xx answer is an object whose list is the empty array, reading the element
    0 gives [undefined], the next read throws, and the adapter returns the
    error string with the message of that [TypeError]. *)
Theorem empty_list_is_reported
    (x : provider) (prompt : value) (w : World) (s : N)
    (fields : list (jsstring * value)) :
  validate_status s = true ->
  network w (provider_request x w prompt) = HttpReply s (VObj fields) ->
  own_property fields (list_key x) = VArr [] ->
  outcome (call_adapter x prompt) w
  = Normal (VStr (`"Error calling " ++ provider_label x
                  ++ `": Cannot read properties of undefined (reading '"
                  ++ element_key x ++ `"')")).
Proof.
  intros Hs Hnet Hempty. unfold outcome. rewrite call_adapter_run. cbn [snd].
  rewrite Hnet. unfold adapter_result. rewrite Hs.
  destruct x; cbn [extraction_path follow undefined_or_null property_of list_key]
    in *; rewrite Hempty; reflexivity.
Qed.

Lemma empty_list_is_reported_witness :
  outcome (callModelA (VStr padded_hi))
    (MkWorld no_keys
       (fun _ => HttpReply 200 (VObj [(`"id", VStr `"chatcmpl-1");
                                      (`"choices", VArr [])]))
       stamp)
  = Normal (VStr `"Error calling Model A: Cannot read properties of undefined (reading 'message')").
Proof.
  exact (@empty_list_is_reported ModelA (VStr padded_hi)
           (MkWorld no_keys
              (fun _ => HttpReply 200 (VObj [(`"id", VStr `"chatcmpl-1");
                                             (`"choices", VArr [])]))
              stamp)
           200 [(`"id", VStr `"chatcmpl-1"); (`"choices", VArr [])]
           eq_refl eq_refl eq_refl).
Defined.

(** X14: a body that has no properties. When the body of a 2xx answer is
    [null] or [undefined], the first read throws; when it is a text (an answer
    that is not JSON, or empty), a number or a boolean, the first read gives
    [undefined] and the read of the element 0 throws. Either way the adapter
    returns the error string of that [TypeError]. *)
Theorem body_without_properties_is_reported
    (x : provider) (prompt : value) (w : World) (s : N) (d : value) :
  validate_status s = true ->
  network w (provider_request x w prompt) = HttpReply s d ->
  match d with VArr _ | VObj _ => False | _ => True end ->
  outcome (call_adapter x prompt) w
  = Normal (VStr (`"Error calling " ++ provider_label x ++ `": "
                  ++ match d with
                     | VUndefined =>
                         `"Cannot read properties of undefined (reading '"
                         ++ list_key x ++ `"')"
                     | VNull =>
                         `"Cannot read properties of null (reading '"
                         ++ list_key x ++ `"')"
                     | _ => `"Cannot read properties of undefined (reading '0')"
                     end)).
Proof.
  intros Hs Hnet Hd. unfold outcome. rewrite call_adapter_run. cbn [snd].
  rewrite Hnet. unfold adapter_result. rewrite Hs.
  destruct d; try contradiction; destruct x; reflexivity.
Qed.

(** An answer 200 whose body is a page of text. *)
Lemma body_without_properties_is_reported_witness :
  outcome (callModelC (VStr padded_hi))
    (MkWorld no_keys (fun _ => HttpReply 200 (VStr `"<html>Bad gateway</html>")) stamp)
  = Normal (VStr `"Error calling Model C: Cannot read properties of undefined (reading '0')").
Proof.
  exact (@body_without_properties_is_reported ModelC (VStr padded_hi)
           (MkWorld no_keys
              (fun _ => HttpReply 200 (VStr `"<html>Bad gateway</html>")) stamp)
           200 (VStr `"<html>Bad gateway</html>") eq_refl eq_refl I).
Defined.

(** ** From the replies to the response *)

(** X15: the texts arrive unchanged. On a prompt that passes the validation,
    when the three providers answer 2xx in their documented shapes with the
    texts [ta], [tb], [tc], the handler answers 200 with exactly the body
    [{ modelA: ta, modelB: tb, modelC: tc }]. *)
Theorem texts_arrive_unchanged
    (req : express_request) (s : jsstring) (w : World)
    (t : provider -> jsstring) (more : provider -> list value) (st : provider -> N) :
  prompt_of req = Some (VStr s) -> blank s = false ->
  (forall x, validate_status (st x) = true
             /\ network w (provider_request x w (VStr s))
                = HttpReply (st x) (text_reply x (VStr (t x)) (more x))) ->
  outcome (compare_handler req) w
  = Normal (Respond 200 (VObj [(`"modelA", VStr (t ModelA));
                               (`"modelB", VStr (t ModelB));
                               (`"modelC", VStr (t ModelC))])).
Proof.
  intros Hp Hb Hnet. unfold outcome.
  rewrite (compare_handler_valid req w Hp Hb). cbn [snd].
  unfold json, comparison. cbn [map].
  destruct (Hnet ModelA) as [SA NA]. destruct (Hnet ModelB) as [SB NB].
  destruct (Hnet ModelC) as [SC NC].
  rewrite NA, NB, NC. unfold adapter_result. rewrite SA, SB, SC.
  reflexivity.
Qed.

Lemma texts_arrive_unchanged_witness :
  outcome (compare_handler (post (VStr padded_hi)))
    (MkWorld no_keys
       (serve (HttpReply 200 (text_reply ModelA (VStr `"one") []))
          (HttpReply 200 (text_reply ModelB (VStr `"two") []))
          (HttpReply 200 (text_reply ModelC (VStr `"three") [])))
       stamp)
  = Normal (Respond 200 (VObj [(`"modelA", VStr `"one"); (`"modelB", VStr `"two");
                               (`"modelC", VStr `"three")])).
Proof.
  apply (@texts_arrive_unchanged (post (VStr padded_hi)) padded_hi
           (MkWorld no_keys
              (serve (HttpReply 200 (text_reply ModelA (VStr `"one") []))
                 (HttpReply 200 (text_reply ModelB (VStr `"two") []))
                 (HttpReply 200 (text_reply ModelC (VStr `"three") [])))
              stamp)
           (fun x => match x with
                     | ModelA => `"one" | ModelB => `"two" | ModelC => `"three"
                     end)
           (fun _ => []) (fun _ => 200%N) eq_refl eq_refl).
  intros []; split; reflexivity.
Defined.

(** X16: one provider that fails does not touch the others. On a prompt that
    passes the validation, when the call of provider [x] raises the error [e]
    and the other two answer 2xx in their documented shapes with texts, the
    handler answers 200, the slot of [x] is its error string and the other two
    slots are the texts. *)
Theorem one_failure_leaves_the_other_texts
    (req : express_request) (s : jsstring) (w : World) (x : provider) (e : error)
    (t : provider -> jsstring) :
  prompt_of req = Some (VStr s) -> blank s = false ->
  caught x (network w (provider_request x w (VStr s))) = Some e ->
  (forall y, y <> x ->
             network w (provider_request y w (VStr s))
             = HttpReply 200 (text_reply y (VStr (t y)) [])) ->
  exists r,
    outcome (compare_handler req) w = Normal r
    /\ status r = 200%N
    /\ slot x r = VStr (`"Error calling " ++ provider_label x ++ `": " ++ message e)
    /\ forall y, y <> x -> slot y r = VStr (t y).
Proof.
  intros Hp Hb He Hothers. exists (json 200 (comparison w (VStr s))).
  unfold outcome. rewrite (compare_handler_valid req w Hp Hb).
  split; [reflexivity |]. split; [reflexivity |]. split.
  - rewrite slot_comparison, (adapter_result_caught x _ He). reflexivity.
  - intros y Hy. rewrite slot_comparison, (Hothers y Hy).
    destruct y; reflexivity.
Qed.

Lemma one_failure_leaves_the_other_texts_witness :
  exists r,
    outcome (compare_handler (post (VStr padded_hi)))
      (MkWorld no_keys
         (serve (HttpReply 200 (text_reply ModelA (VStr `"one") []))
            (HttpReply 429 VNull)
            (HttpReply 200 (text_reply ModelC (VStr `"three") [])))
         stamp) = Normal r
    /\ status r = 200%N
    /\ slot ModelB r = VStr `"Error calling Model B: Request failed with status code 429"
    /\ slot ModelA r = VStr `"one" /\ slot ModelC r = VStr `"three".
Proof.
  set (w := MkWorld no_keys
              (serve (HttpReply 200 (text_reply ModelA (VStr `"one") []))
                 (HttpReply 429 VNull)
                 (HttpReply 200 (text_reply ModelC (VStr `"three") [])))
              stamp).
  set (t := fun x => match x with
                     | ModelA => `"one" | ModelB => `"two" | ModelC => `"three"
                     end).
  assert (Hothers : forall y, y <> ModelB ->
             network w (provider_request y w (VStr padded_hi))
             = HttpReply 200 (text_reply y (VStr (t y)) [])).
  { intros [] Hy; [reflexivity | contradiction Hy; reflexivity | reflexivity]. }
  destruct (@one_failure_leaves_the_other_texts (post (VStr padded_hi)) padded_hi
              w ModelB (Error AxiosError `"Request failed with status code 429") t
              eq_refl eq_refl eq_refl Hothers)
    as (r & Hr & Hs & Hb & Ho).
  exists r. split; [exact Hr |]. split; [exact Hs |]. split; [exact Hb |].
  split; apply Ho; discriminate.
Defined.
